(** * Single-stepping harness of sancus-support

    Shallow embedding of [include/sancus_support/sancus_step.h]: the two
    macros [SANCUS_STEP_INIT] and [SANCUS_STEP_ISR].  The handler is a block
    of MSP430 assembly, so the embedding is a small interpreter for the
    instructions that block uses, and the macros are kept as the list of
    lines they expand to.

    What the model covers and what it leaves out:
    - registers and memory hold 16-bit words; every access in the header is
      a word access, and word alignment of addresses is not modelled;
    - the Timer_A registers are memory cells: a store sets them, a load
      reads them, and the counter does not advance while the handler runs;
    - the step callback is code linked from elsewhere: a transformer of the
      machine, entered with the return address pushed and left by its [ret];
    - interrupt entry, and what the Sancus hardware leaves in r1 and r15
      when it interrupts a protected module, happen before the first line
      of the handler and are part of the state the handler starts from;
    - the array [__ss_isr_stack] and [__ss_isr_reti_addr] are declared by
      the header and never named by the two macros. *)

From Stdlib Require Import ZArith List Bool Lia.
Import ListNotations.
Local Open Scope Z_scope.

(** ** The fragment of the MSP430 the header relies on *)

Module Msp430.

(** 16-bit words, wrap-around written out. *)
Definition wrap (z : Z) : Z := z mod 65536.

(** Register file (r0 .. r15, by index) and word-addressed memory.
    Peripheral registers are memory mapped, hence plain cells of [mem]. *)
Record machine := mkMachine { regs : Z -> Z; mem : Z -> Z }.

Definition r0 : Z := 0.   (* program counter *)
Definition r1 : Z := 1.   (* stack pointer *)
Definition r2 : Z := 2.   (* status register *)
Definition r15 : Z := 15.

(** Status register bits. *)
Definition flag_C : Z := 0.
Definition flag_Z : Z := 1.
Definition flag_N : Z := 2.
Definition flag_GIE : Z := 3.
Definition flag_V : Z := 8.

Inductive operand :=
| Imm (n : Z)        (* #n  *)
| Reg (r : Z)        (* rN  *)
| Abs (a : Z).       (* &a  *)

Inductive instr :=
| MOV (src dst : operand)
| CMP (src dst : operand)
| JNE (l : nat)      (* jne <l>f *)
| JMP (l : nat)      (* jmp <l>f *)
| PUSH (src : operand)
| CALL (f : Z)       (* call #f *)
| RETI
| DINT.

(** A line of assembly text: an instruction or a local label [n:]. *)
Inductive line :=
| Ins (i : instr)
| Lbl (n : nat).

(** What is linked around a block of code: [extern f] is the behaviour of
    the routine at address [f] from its first instruction to its [ret],
    and [ret_addr] is the address of the instruction after the block's
    [call], the word that [call] pushes. *)
Record linkage := mkLinkage {
  extern : Z -> machine -> machine;
  ret_addr : Z
}.

Definition upd (f : Z -> Z) (k v : Z) : Z -> Z :=
  fun x => if x =? k then v else f x.

Definition set_reg (r v : Z) (m : machine) : machine :=
  mkMachine (upd (regs m) r v) (mem m).

Definition store (a v : Z) (m : machine) : machine :=
  mkMachine (regs m) (upd (mem m) a v).

Definition read (o : operand) (m : machine) : Z :=
  match o with
  | Imm n => wrap n
  | Reg r => regs m r
  | Abs a => mem m a
  end.

Definition write (o : operand) (v : Z) (m : machine) : option machine :=
  match o with
  | Imm _ => None
  | Reg r => Some (set_reg r v m)
  | Abs a => Some (store a v m)
  end.

Definition push (v : Z) (m : machine) : machine :=
  let sp := wrap (regs m r1 - 2) in
  store sp v (set_reg r1 sp m).

Definition pop (r : Z) (m : machine) : machine :=
  let sp := regs m r1 in
  set_reg r1 (wrap (sp + 2)) (set_reg r (mem m sp) m).

Definition set_flag (n : Z) (b : bool) (sr : Z) : Z :=
  if b then Z.setbit sr n else Z.clearbit sr n.

Definition msb (v : Z) : bool := Z.testbit v 15.

(** Flags of [cmp src, dst], which computes [dst - src]. *)
Definition cmp_flags (src dst sr : Z) : Z :=
  let s := wrap src in
  let d := wrap dst in
  let r := wrap (d - s) in
  set_flag flag_V (xorb (msb d) (msb s) && xorb (msb r) (msb d))
    (set_flag flag_N (msb r)
      (set_flag flag_Z (r =? 0)
        (set_flag flag_C (s <=? d) sr))).

Inductive outcome :=
| Next (m : machine)              (* go on with the following line *)
| Goto (l : nat) (m : machine)    (* go on at the next label [l:] *)
| Leave (m : machine)             (* interrupt return: the block is left *)
| Fault.

Definition exec (K : linkage) (i : instr) (m : machine) : outcome :=
  match i with
  | MOV s d =>
      match write d (read s m) m with
      | Some m' => Next m'
      | None => Fault
      end
  | CMP s d =>
      Next (set_reg r2 (cmp_flags (read s m) (read d m) (regs m r2)) m)
  | JNE l => if Z.testbit (regs m r2) flag_Z then Next m else Goto l m
  | JMP l => Goto l m
  | PUSH s => Next (push (read s m) m)
  | CALL f => Next (extern K f (push (ret_addr K) m))
  | RETI => Leave (pop r0 (pop r2 m))
  | DINT => Next (set_reg r2 (Z.clearbit (regs m r2) flag_GIE) m)
  end.

(** Position of the first label [l:] in [p], whose head is line [k]. *)
Fixpoint label_at (l : nat) (p : list line) (k : nat) : option nat :=
  match p with
  | [] => None
  | Lbl n :: q => if Nat.eqb n l then Some k else label_at l q (S k)
  | Ins _ :: q => label_at l q (S k)
  end.

(** Target of a forward reference [<l>f] made from line [pos - 1]. *)
Definition forward_label (l : nat) (prog : list line) (pos : nat)
  : option nat :=
  label_at l (skipn pos prog) pos.

Inductive result :=
| Returned (m : machine)      (* left through reti *)
| FellThrough (m : machine)   (* ran past the last line of the block *)
| Stuck
| OutOfFuel.

(** One executed instruction together with the state it started from. *)
Definition trace := list (instr * machine).

Fixpoint run (K : linkage) (prog : list line) (fuel : nat) (pos : nat)
             (m : machine) : trace * result :=
  match fuel with
  | O => ([], OutOfFuel)
  | S k =>
      match nth_error prog pos with
      | None => ([], FellThrough m)
      | Some (Lbl _) => run K prog k (S pos) m
      | Some (Ins i) =>
          match exec K i m with
          | Next m' =>
              let (t, r) := run K prog k (S pos) m' in ((i, m) :: t, r)
          | Goto l m' =>
              match forward_label l prog (S pos) with
              | Some p =>
                  let (t, r) := run K prog k p m' in ((i, m) :: t, r)
              | None => ([(i, m)], Stuck)
              end
          | Leave m' => ([(i, m)], Returned m')
          | Fault => ([(i, m)], Stuck)
          end
      end
  end.

(** The instructions of a trace, in the order they were executed. *)
Definition instrs (t : trace) : list instr := map fst t.

End Msp430.

Import Msp430.

(** ** sancus_step.h *)

(** Addresses the linker and [msp430.h] give to the symbols the header
    names: the three Timer_A registers and the two globals the assembly
    touches. *)
Record symbols := mkSymbols {
  TAR : Z;
  TACCR0 : Z;
  TACTL : Z;
  __ss_isr_sp : Z;
  __ss_isr_tar_entry : Z
}.

Definition HW_IRQ_LATENCY : Z := 34.
Definition ISR_STACK_SIZE : Z := 512.
Definition INIT_LATENCY : Z := 42.

(** Modelled from the spec: [timer.h], which defines TACTL_ENABLE, is not
    among the sources.  The spec has the timer re-enabled "in a free-running
    up-counting mode clocked from the main system clock"; the handler's own
    comment gives the word: "0x212 is TACTL_ENABLE". *)
Definition TACTL_ENABLE : Z := 0x212.

(** The resume latency the handler programs ("0x41 is latency of resume"). *)
Definition RESUME_LATENCY : Z := 0x41.

(** [SANCUS_STEP_INIT].  The three C assignments go to volatile peripheral
    registers, one word store each.  [TACTL_DISABLE] comes from [timer.h]
    and is left as a parameter. *)
Definition SANCUS_STEP_INIT (S : symbols) (TACTL_DISABLE : Z) : list line :=
  [ Ins DINT;
    Ins (MOV (Imm TACTL_DISABLE) (Abs (TACTL S)));
    Ins (MOV (Imm INIT_LATENCY) (Abs (TACCR0 S)));
    (* source mclk, up mode *)
    Ins (MOV (Imm TACTL_ENABLE) (Abs (TACTL S))) ].

(** [SANCUS_STEP_ISR(fct)], line by line. *)
Definition SANCUS_STEP_ISR (S : symbols) (fct : Z) : list line :=
  [ Ins (MOV (Abs (TAR S)) (Abs (__ss_isr_tar_entry S)));
    Ins (CMP (Imm 0x0) (Reg r1));
    Ins (JNE 1);
    (* sm got interrupted *)
    Ins (MOV (Abs (__ss_isr_sp S)) (Reg r1));
    Ins (PUSH (Reg r15));
    Ins (PUSH (Imm 0x0));
    Ins (CALL fct);
    Ins (MOV (Imm 0x41) (Abs (TACCR0 S)));
    Ins (MOV (Imm 0x212) (Abs (TACTL S)));
    Ins (JMP 2);
    Lbl 1;
    (* no sm interrupted *)
    Ins (MOV (Imm 0x0) (Abs (TACTL S)));
    Lbl 2;
    (* cont after if-then-else *)
    Ins RETI ].

(** Running the macros: one unit of fuel per line of text. *)
Definition init_fuel : nat := 5.
Definition isr_fuel : nat := 14.

Definition step_init (K : linkage) (S : symbols) (TACTL_DISABLE : Z)
                     (m : machine) : trace * result :=
  run K (SANCUS_STEP_INIT S TACTL_DISABLE) init_fuel 0 m.

Definition step_isr (K : linkage) (S : symbols) (fct : Z) (m : machine)
  : trace * result :=
  run K (SANCUS_STEP_ISR S fct) isr_fuel 0 m.

(** The machine a run ends in, when it ends. *)
Definition final (r : result) : option machine :=
  match r with
  | Returned m | FellThrough m => Some m
  | Stuck | OutOfFuel => None
  end.

(** ** Vocabulary of the properties *)

(** A 16-bit word. *)
Definition word (v : Z) : Prop := 0 <= v < 65536.

(** Compare and jumps decide where execution goes on; every other
    instruction is an action on registers, memory or the callback. *)
Definition is_action (i : instr) : bool :=
  match i with
  | CMP _ _ | JNE _ | JMP _ => false
  | _ => true
  end.

Definition actions (t : trace) : list instr := filter is_action (instrs t).


Definition is_call (i : instr) : bool :=
  match i with CALL _ => true | _ => false end.


Definition is_cmp (i : instr) : bool :=
  match i with CMP _ _ => true | _ => false end.

Definition is_branch (i : instr) : bool :=
  match i with JNE _ => true | _ => false end.

Definition is_reti (i : instr) : bool :=
  match i with RETI => true | _ => false end.

Definition count (p : instr -> bool) (l : list instr) : nat :=
  length (filter p l).

(** Operands an instruction reads, and the one it writes. *)
Definition sources (i : instr) : list operand :=
  match i with
  | MOV s _ => [s]
  | CMP s d => [s; d]
  | PUSH s => [s]
  | _ => []
  end.

Definition destination (i : instr) : option operand :=
  match i with
  | MOV _ d => Some d
  | _ => None
  end.

Definition writes_cell (a : Z) (i : instr) : bool :=
  match destination i with
  | Some (Abs b) => b =? a
  | _ => false
  end.

Definition instr_of (l : line) : list instr :=
  match l with Ins i => [i] | Lbl _ => [] end.

(** The instructions a block of text contains, labels dropped. *)
Definition text (p : list line) : list instr := flat_map instr_of p.

(** The path an invocation of the handler took. *)
Inductive path := StateA | StateB.

Definition path_of (t : trace) : path :=
  if existsb is_call (instrs t) then StateA else StateB.

(** The fields of TACTL, at the positions [msp430.h] (a toolchain header,
    not part of the repository) gives them: mode control in bits 5:4, where
    0 is stopped and 1 is up mode; clock select in bits 9:8; interrupt
    enable in bit 1. *)
Definition timer_mode (tactl : Z) : Z := Z.land (Z.shiftr tactl 4) 3.
Definition timer_clock (tactl : Z) : Z := Z.land (Z.shiftr tactl 8) 3.
Definition timer_irq (tactl : Z) : bool := Z.testbit tactl 1.

Definition timer_enabled (S : symbols) (m : machine) : bool :=
  negb (timer_mode (mem m (TACTL S)) =? 0).

(** Timer configuration as the handler and the initialisation leave it. *)
Definition timer_state (S : symbols) (m : machine) : Z * Z :=
  (mem m (TACTL S), mem m (TACCR0 S)).

(** Global interrupt enable. *)
Definition gie (m : machine) : bool := Z.testbit (regs m r2) flag_GIE.

(** ** A concrete image, to run the macros on

    Timer_A at its usual addresses, the two globals in RAM, the interrupt
    stack pointer preset to 0x0400, and a step callback that returns at
    once (its body is a lone [ret]). *)
Definition demo_symbols : symbols := mkSymbols 0x170 0x172 0x160 0x200 0x202.

Definition demo_fct : Z := 0xE000.

Definition demo_linkage : linkage :=
  mkLinkage (fun _ m => pop r0 m) 0xF01A.

Definition cells (l : list (Z * Z)) : Z -> Z :=
  fun a => fold_right (fun kv d => if a =? fst kv then snd kv else d) 0 l.

(** The module was interrupted: r1 reads zero, r15 holds 0x6000, the timer
    counter stands at 7 and the timer is running with threshold 0x41. *)
Definition demo_active : machine :=
  mkMachine (cells [(r1, 0); (r15, 0x6000)])
            (cells [(0x170, 7); (0x172, 0x41); (0x160, 0x212);
                    (0x200, 0x400)]).

(** Ordinary code was interrupted: r1 points at the frame the hardware
    pushed (status word 8, return address 0x5000). *)
Definition demo_idle : machine :=
  mkMachine (cells [(r1, 0x3FC); (r15, 0x1234)])
            (cells [(0x170, 7); (0x172, 0x41); (0x160, 0x212);
                    (0x200, 0x400); (0x3FC, 8); (0x3FE, 0x5000)]).

(** ** The states the handler passes through

    Each is the pre-state of one line of [SANCUS_STEP_ISR]; [step_isr_eq]
    below proves that these are the states of the interpreter's trace. *)

(** after [mov &TAR, &__ss_isr_tar_entry] *)
Definition captured (S : symbols) (m : machine) : machine :=
  store (__ss_isr_tar_entry S) (mem m (TAR S)) m.

(** after [cmp #0x0, r1] *)
Definition tested (S : symbols) (m : machine) : machine :=
  let m1 := captured S m in
  set_reg r2 (cmp_flags (wrap 0) (regs m1 r1) (regs m1 r2)) m1.

(** after [mov &__ss_isr_sp, r1] *)
Definition switched (S : symbols) (m : machine) : machine :=
  let m2 := tested S m in
  set_reg r1 (mem m2 (__ss_isr_sp S)) m2.

(** after [push r15] *)
Definition saved (S : symbols) (m : machine) : machine :=
  let m3 := switched S m in push (regs m3 r15) m3.

(** after [push #0x0] *)
Definition framed (S : symbols) (m : machine) : machine :=
  push (wrap 0) (saved S m).

(** after [call #fct], the callback having returned *)
Definition called (K : linkage) (S : symbols) (fct : Z) (m : machine)
  : machine :=
  extern K fct (push (ret_addr K) (framed S m)).

(** after [mov #0x41, &TACCR0] *)
Definition latched (K : linkage) (S : symbols) (fct : Z) (m : machine)
  : machine :=
  store (TACCR0 S) (wrap 0x41) (called K S fct m).

(** after [mov #0x212, &TACTL] *)
Definition rearmed (K : linkage) (S : symbols) (fct : Z) (m : machine)
  : machine :=
  store (TACTL S) (wrap 0x212) (latched K S fct m).

(** after [mov #0x0, &TACTL] *)
Definition disabled (S : symbols) (m : machine) : machine :=
  store (TACTL S) (wrap 0) (tested S m).

(** The handler's two runs, written out. *)
Definition trace_A (K : linkage) (S : symbols) (fct : Z) (m : machine)
  : trace :=
  [ (MOV (Abs (TAR S)) (Abs (__ss_isr_tar_entry S)), m);
    (CMP (Imm 0) (Reg r1), captured S m);
    (JNE 1, tested S m);
    (MOV (Abs (__ss_isr_sp S)) (Reg r1), tested S m);
    (PUSH (Reg r15), switched S m);
    (PUSH (Imm 0), saved S m);
    (CALL fct, framed S m);
    (MOV (Imm 0x41) (Abs (TACCR0 S)), called K S fct m);
    (MOV (Imm 0x212) (Abs (TACTL S)), latched K S fct m);
    (JMP 2, rearmed K S fct m);
    (RETI, rearmed K S fct m) ].

Definition trace_B (S : symbols) (m : machine) : trace :=
  [ (MOV (Abs (TAR S)) (Abs (__ss_isr_tar_entry S)), m);
    (CMP (Imm 0) (Reg r1), captured S m);
    (JNE 1, tested S m);
    (MOV (Imm 0) (Abs (TACTL S)), tested S m);
    (RETI, disabled S m) ].

(** ** Observing a run *)


(** The state the first instruction satisfying [p] started from. *)
Definition state_before (p : instr -> bool) (t : trace) : option machine :=
  option_map snd (find (fun e => p (fst e)) t).

Definition isr_trace (K : linkage) (S : symbols) (fct : Z) (m : machine)
  : trace :=
  fst (step_isr K S fct m).

(** The machine the handler hands back ([m] itself should it not return;
    [isr_returns] shows this never happens). *)
Definition isr_exit (K : linkage) (S : symbols) (fct : Z) (m : machine)
  : machine :=
  match final (snd (step_isr K S fct m)) with
  | Some m' => m'
  | None => m
  end.



(** State B as the spec lists it: the timer is disabled; then the return. *)
Definition spec_state_B (S : symbols) : list instr :=
  [ MOV (Imm 0) (Abs (TACTL S)); RETI ].




(** ** Further observations *)

(** The machine the initialisation leaves ([m] itself should it not run to
    its end; [step_init_eq] shows it always does). *)
Definition init_exit (K : linkage) (S : symbols) (TACTL_DISABLE : Z)
                     (m : machine) : machine :=
  match final (snd (step_init K S TACTL_DISABLE m)) with
  | Some m' => m'
  | None => m
  end.

(** The state the callback starts from: [call] has pushed the return
    address on top of what the handler prepared. *)
Definition callback_entry (K : linkage) (t : trace) : option machine :=
  option_map (push (ret_addr K)) (state_before is_call t).

(** Addresses of the [ISR_STACK_SIZE] words of [__ss_isr_stack], an array
    of [uint16_t] placed at [base]. *)
Definition in_isr_stack (base a : Z) : Prop :=
  base <= a < base + 2 * ISR_STACK_SIZE.

(** A series of interrupts between which the cell at [a] is left alone. *)
Inductive series (K : linkage) (S : symbols) (fct : Z) (a : Z)
  : machine -> list machine -> Prop :=
| series_end m : series K S fct a m []
| series_irq m m' rest :
    mem m' a = mem (isr_exit K S fct m) a ->
    series K S fct a m' rest ->
    series K S fct a m (m :: rest).

(** * Proofs *)

(** ** Words, registers and memory *)

Lemma wrap_wrap z : wrap (wrap z) = wrap z.
Proof. unfold wrap. apply Z.mod_mod. lia. Qed.

Lemma wrap_word v : word v -> wrap v = v.
Proof. unfold word, wrap. intros H. now apply Z.mod_small. Qed.


Lemma regs_set_reg_same r v m : regs (set_reg r v m) r = v.
Proof. cbn. unfold upd. now rewrite Z.eqb_refl. Qed.

Lemma regs_set_reg_other r r' v m :
  r' <> r -> regs (set_reg r v m) r' = regs m r'.
Proof.
  intros H. cbn. unfold upd. destruct (Z.eqb_spec r' r); congruence.
Qed.

Lemma mem_set_reg r v m a : mem (set_reg r v m) a = mem m a.
Proof. reflexivity. Qed.

Lemma regs_store a v m r : regs (store a v m) r = regs m r.
Proof. reflexivity. Qed.

Lemma mem_store_same a v m : mem (store a v m) a = v.
Proof. cbn. unfold upd. now rewrite Z.eqb_refl. Qed.

Lemma mem_store_other a b v m : b <> a -> mem (store a v m) b = mem m b.
Proof.
  intros H. cbn. unfold upd. destruct (Z.eqb_spec b a); congruence.
Qed.

Lemma regs_push_sp v m : regs (push v m) r1 = wrap (regs m r1 - 2).
Proof. unfold push. cbv zeta. now rewrite regs_store, regs_set_reg_same. Qed.

Lemma regs_push_other v m r : r <> r1 -> regs (push v m) r = regs m r.
Proof.
  intros H. unfold push. cbv zeta.
  now rewrite regs_store, regs_set_reg_other.
Qed.

Lemma mem_push_top v m : mem (push v m) (wrap (regs m r1 - 2)) = v.
Proof. unfold push. cbv zeta. apply mem_store_same. Qed.

Lemma mem_push_other v m a :
  a <> wrap (regs m r1 - 2) -> mem (push v m) a = mem m a.
Proof.
  intros H. unfold push. cbv zeta.
  now rewrite mem_store_other, mem_set_reg.
Qed.

Lemma mem_pop r m a : mem (pop r m) a = mem m a.
Proof. reflexivity. Qed.

Lemma regs_pop_sp r m : regs (pop r m) r1 = wrap (regs m r1 + 2).
Proof. unfold pop. cbv zeta. apply regs_set_reg_same. Qed.

Lemma regs_pop_target r m : r <> r1 -> regs (pop r m) r = mem m (regs m r1).
Proof.
  intros H. unfold pop. cbv zeta.
  now rewrite regs_set_reg_other, regs_set_reg_same.
Qed.

Lemma regs_pop_other r r' m :
  r' <> r1 -> r' <> r -> regs (pop r m) r' = regs m r'.
Proof.
  intros H1 H2. unfold pop. cbv zeta.
  now rewrite !regs_set_reg_other.
Qed.

(** ** Status flags *)

Lemma testbit_set_flag_same n b sr :
  0 <= n -> Z.testbit (set_flag n b sr) n = b.
Proof.
  intros Hn. unfold set_flag. destruct b.
  - now apply Z.setbit_eq.
  - apply Z.clearbit_eq.
Qed.

Lemma testbit_set_flag_other n k b sr :
  0 <= n -> n <> k -> Z.testbit (set_flag n b sr) k = Z.testbit sr k.
Proof.
  intros Hn Hnk. unfold set_flag. destruct b.
  - now apply Z.setbit_neq.
  - now apply Z.clearbit_neq.
Qed.

Ltac flag_side := unfold flag_C, flag_Z, flag_N, flag_GIE, flag_V; lia.

Lemma cmp_flags_Z s d sr :
  Z.testbit (cmp_flags s d sr) flag_Z = (wrap (wrap d - wrap s) =? 0).
Proof.
  unfold cmp_flags. cbv zeta.
  rewrite !testbit_set_flag_other by flag_side.
  apply testbit_set_flag_same. flag_side.
Qed.

Lemma cmp_flags_GIE s d sr :
  Z.testbit (cmp_flags s d sr) flag_GIE = Z.testbit sr flag_GIE.
Proof.
  unfold cmp_flags. cbv zeta.
  now rewrite !testbit_set_flag_other by flag_side.
Qed.

Lemma cmp_flags_other s d sr n :
  n <> flag_C -> n <> flag_Z -> n <> flag_N -> n <> flag_V ->
  Z.testbit (cmp_flags s d sr) n = Z.testbit sr n.
Proof.
  intros HC HZ HN HV. unfold cmp_flags. cbv zeta.
  now rewrite !testbit_set_flag_other by first [flag_side | congruence].
Qed.

Lemma cmp_flags_C s d sr :
  Z.testbit (cmp_flags s d sr) flag_C = (wrap s <=? wrap d).
Proof.
  unfold cmp_flags. cbv zeta.
  rewrite !testbit_set_flag_other by flag_side.
  apply testbit_set_flag_same. flag_side.
Qed.

Lemma cmp_flags_N s d sr :
  Z.testbit (cmp_flags s d sr) flag_N = msb (wrap (wrap d - wrap s)).
Proof.
  unfold cmp_flags. cbv zeta.
  rewrite !testbit_set_flag_other by flag_side.
  apply testbit_set_flag_same. flag_side.
Qed.

Lemma cmp_flags_V s d sr :
  Z.testbit (cmp_flags s d sr) flag_V =
  xorb (msb (wrap d)) (msb (wrap s))
  && xorb (msb (wrap (wrap d - wrap s))) (msb (wrap d)).
Proof.
  unfold cmp_flags. cbv zeta. apply testbit_set_flag_same. flag_side.
Qed.

(** ** The interpreter *)

Lemma run_unfold K prog k pos m :
  run K prog (S k) pos m =
  match nth_error prog pos with
  | None => ([], FellThrough m)
  | Some (Lbl _) => run K prog k (S pos) m
  | Some (Ins i) =>
      match exec K i m with
      | Next m' => let (t, r) := run K prog k (S pos) m' in ((i, m) :: t, r)
      | Goto l m' =>
          match forward_label l prog (S pos) with
          | Some p => let (t, r) := run K prog k p m' in ((i, m) :: t, r)
          | None => ([(i, m)], Stuck)
          end
      | Leave m' => ([(i, m)], Returned m')
      | Fault => ([(i, m)], Stuck)
      end
  end.
Proof. reflexivity. Qed.

(** More fuel never changes a run that did not run out of it. *)
Lemma run_fuel_mono K prog k :
  forall pos m,
    snd (run K prog k pos m) <> OutOfFuel ->
    run K prog (S k) pos m = run K prog k pos m.
Proof.
  induction k as [|k IH]; intros pos m Hne.
  - cbn in Hne. congruence.
  - rewrite (run_unfold K prog (S k) pos m).
    rewrite (run_unfold K prog k pos m) in Hne |- *.
    destruct (nth_error prog pos) as [[i|n]|]; try reflexivity.
    + destruct (exec K i m) as [m'|l m'|m'|]; try reflexivity.
      * rewrite IH; [reflexivity|].
        destruct (run K prog k (S pos) m'); exact Hne.
      * destruct (forward_label l prog (S pos)) as [p|]; try reflexivity.
        rewrite IH; [reflexivity|].
        destruct (run K prog k p m'); exact Hne.
    + now apply IH.
Qed.

Lemma run_fuel_more K prog k pos m extra :
  snd (run K prog k pos m) <> OutOfFuel ->
  run K prog (extra + k) pos m = run K prog k pos m.
Proof.
  intros Hne. induction extra as [|e IH]; [reflexivity|].
  cbn [Nat.add]. rewrite run_fuel_mono; [exact IH|]. now rewrite IH.
Qed.

(** One line of the macro at a time. *)
Ltac tick :=
  rewrite run_unfold;
  cbn [nth_error SANCUS_STEP_ISR SANCUS_STEP_INIT exec write read
       forward_label skipn label_at Nat.eqb].

(** ** The handler, in closed form *)

Section Handler.

Variable K : linkage.
Variable S : symbols.
Variable fct : Z.

Lemma tested_flag_Z m :
  Z.testbit (regs (tested S m) r2) flag_Z = (wrap (regs m r1) =? 0).
Proof.
  unfold tested. cbv zeta. rewrite regs_set_reg_same, cmp_flags_Z.
  unfold captured. rewrite regs_store, !wrap_wrap.
  change (wrap 0) with 0. now rewrite Z.sub_0_r, wrap_wrap.
Qed.

Lemma run_isr_eq k m :
  run K (SANCUS_STEP_ISR S fct) (k + 13) 0 m =
  if wrap (regs m r1) =? 0
  then (trace_A K S fct m, Returned (pop r0 (pop r2 (rearmed K S fct m))))
  else (trace_B S m, Returned (pop r0 (pop r2 (disabled S m)))).
Proof.
  assert (E : run K (SANCUS_STEP_ISR S fct) 13 0 m =
              if wrap (regs m r1) =? 0
              then (trace_A K S fct m,
                    Returned (pop r0 (pop r2 (rearmed K S fct m))))
              else (trace_B S m, Returned (pop r0 (pop r2 (disabled S m))))).
  { tick. fold (captured S m).
    tick. change (set_reg r2 _ (captured S m)) with (tested S m).
    tick. rewrite tested_flag_Z.
    destruct (wrap (regs m r1) =? 0).
    - tick. fold (switched S m).
      tick. fold (saved S m).
      tick. fold (framed S m).
      tick. fold (called K S fct m).
      tick. fold (latched K S fct m).
      tick. fold (rearmed K S fct m).
      tick. tick. tick. reflexivity.
    - tick. tick. fold (disabled S m). tick. tick. reflexivity. }
  rewrite run_fuel_more; [exact E|].
  rewrite E. destruct (wrap (regs m r1) =? 0); discriminate.
Qed.

Lemma step_isr_eq m :
  step_isr K S fct m =
  if wrap (regs m r1) =? 0
  then (trace_A K S fct m, Returned (pop r0 (pop r2 (rearmed K S fct m))))
  else (trace_B S m, Returned (pop r0 (pop r2 (disabled S m)))).
Proof. exact (run_isr_eq 1 m). Qed.

Lemma step_isr_A m :
  regs m r1 = 0 ->
  step_isr K S fct m =
  (trace_A K S fct m, Returned (pop r0 (pop r2 (rearmed K S fct m)))).
Proof. intros H. rewrite step_isr_eq, H. reflexivity. Qed.

Lemma step_isr_B m :
  0 < regs m r1 < 65536 ->
  step_isr K S fct m =
  (trace_B S m, Returned (pop r0 (pop r2 (disabled S m)))).
Proof.
  intros H. rewrite step_isr_eq, wrap_word by (unfold word; lia).
  destruct (Z.eqb_spec (regs m r1) 0); [lia | reflexivity].
Qed.


Lemma isr_trace_A m : regs m r1 = 0 -> isr_trace K S fct m = trace_A K S fct m.
Proof. intros H. unfold isr_trace. now rewrite step_isr_A. Qed.

Lemma isr_trace_B m :
  0 < regs m r1 < 65536 -> isr_trace K S fct m = trace_B S m.
Proof. intros H. unfold isr_trace. now rewrite step_isr_B. Qed.

Lemma isr_exit_A m :
  regs m r1 = 0 ->
  isr_exit K S fct m = pop r0 (pop r2 (rearmed K S fct m)).
Proof. intros H. unfold isr_exit. now rewrite step_isr_A. Qed.

Lemma isr_exit_B m :
  0 < regs m r1 < 65536 ->
  isr_exit K S fct m = pop r0 (pop r2 (disabled S m)).
Proof. intros H. unfold isr_exit. now rewrite step_isr_B. Qed.

Lemma isr_exit_cases m :
  isr_exit K S fct m = pop r0 (pop r2 (rearmed K S fct m)) \/
  isr_exit K S fct m = pop r0 (pop r2 (disabled S m)).
Proof.
  unfold isr_exit. rewrite step_isr_eq.
  destruct (wrap (regs m r1) =? 0); [left | right]; reflexivity.
Qed.

End Handler.

(** ** The step interrupt handler: what an invocation does *)

Section Invocation.

Variable K : linkage.
Variable S : symbols.
Variable fct : Z.


(** C2.  The path is decided by one compare of r1 against zero followed by
    one conditional jump: the compare sees the value r1 had at entry, no
    other compare or conditional jump is executed, and State A is taken
    exactly when that word is zero, State B exactly when it is not. *)
Theorem C2_single_test m :
  word (regs m r1) ->
  let t := isr_trace K S fct m in
  count is_cmp (instrs t) = 1%nat /\
  count is_branch (instrs t) = 1%nat /\
  (exists e m1 m2 rest,
      t = e :: (CMP (Imm 0) (Reg r1), m1) :: (JNE 1, m2) :: rest /\
      regs m1 r1 = regs m r1) /\
  (path_of t = StateA <-> regs m r1 = 0) /\
  (path_of t = StateB <-> regs m r1 <> 0).
Proof.
  intros W. cbv zeta. unfold word in W.
  destruct (Z.eq_dec (regs m r1) 0) as [E|N].
  - rewrite isr_trace_A by exact E.
    repeat split; try reflexivity; try congruence; try discriminate.
    do 4 eexists. split; reflexivity.
  - rewrite isr_trace_B by lia.
    repeat split; try reflexivity; try congruence; try discriminate.
    do 4 eexists. split; reflexivity.
Qed.

Lemma disabled_status m :
  regs (disabled S m) r2 = cmp_flags (wrap 0) (regs m r1) (regs m r2).
Proof.
  unfold disabled, tested, captured. cbv zeta.
  now rewrite regs_store, regs_set_reg_same.
Qed.

(** C3 (as amended).  When r1 reads a nonzero word at entry, the handler
    copies the timer counter into [__ss_isr_tar_entry] and disables the
    timer: the callback is not called, the stack pointer is not switched,
    and when [reti] starts nothing differs from the entry state but
    [__ss_isr_tar_entry], TACTL (now zero) and the four flags the compare
    sets in the status register (C set, Z clear, N the sign of r1, V
    clear); every other bit of the status register, GIE among them, is as
    it was. *)
Theorem C3_state_B_frame m :
  0 < regs m r1 < 65536 ->
  let t := isr_trace K S fct m in
  instrs t =
    [ MOV (Abs (TAR S)) (Abs (__ss_isr_tar_entry S));
      CMP (Imm 0) (Reg r1); JNE 1;
      MOV (Imm 0) (Abs (TACTL S)); RETI ] /\
  actions t =
    MOV (Abs (TAR S)) (Abs (__ss_isr_tar_entry S)) :: spec_state_B S /\
  count is_call (instrs t) = 0%nat /\
  exists mb,
    state_before is_reti t = Some mb /\
    snd (step_isr K S fct m) = Returned (pop r0 (pop r2 mb)) /\
    mem mb (TACTL S) = 0 /\
    regs mb r1 = regs m r1 /\
    (forall a, a <> TACTL S -> a <> __ss_isr_tar_entry S ->
               mem mb a = mem m a) /\
    (forall r, r <> r2 -> regs mb r = regs m r) /\
    (forall n, n <> flag_C -> n <> flag_Z -> n <> flag_N -> n <> flag_V ->
               Z.testbit (regs mb r2) n = Z.testbit (regs m r2) n) /\
    gie mb = gie m /\
    Z.testbit (regs mb r2) flag_C = true /\
    Z.testbit (regs mb r2) flag_Z = false /\
    Z.testbit (regs mb r2) flag_N = Z.testbit (regs m r1) 15 /\
    Z.testbit (regs mb r2) flag_V = false.
Proof.
  intros H. cbv zeta. rewrite isr_trace_B, step_isr_B by exact H.
  split; [reflexivity|]. split; [reflexivity|]. split; [reflexivity|].
  exists (disabled S m). split; [reflexivity|]. split; [reflexivity|].
  assert (W : wrap (regs m r1) = regs m r1)
    by (apply wrap_word; unfold word; lia).
  assert (W0 : wrap (wrap 0) = 0) by reflexivity.
  split; [unfold disabled; apply mem_store_same|].
  split.
  { unfold disabled, tested, captured. cbv zeta.
    now rewrite regs_store, regs_set_reg_other by discriminate. }
  split.
  { intros a Ha Hb. unfold disabled, tested, captured. cbv zeta.
    now rewrite mem_store_other, mem_set_reg, mem_store_other. }
  split.
  { intros r Hr. unfold disabled, tested, captured. cbv zeta.
    now rewrite regs_store, regs_set_reg_other. }
  rewrite disabled_status.
  split; [intros n HC HZ HN HV; now apply cmp_flags_other|].
  split; [unfold gie; apply cmp_flags_GIE|].
  split.
  { rewrite cmp_flags_C, W0, W. apply Z.leb_le. lia. }
  split.
  { rewrite cmp_flags_Z, W0, W, Z.sub_0_r, W. apply Z.eqb_neq. lia. }
  split.
  { rewrite cmp_flags_N, W0, W, Z.sub_0_r, W. reflexivity. }
  rewrite cmp_flags_V, W0, W, Z.sub_0_r, W.
  now rewrite xorb_nilpotent, andb_false_r.
Qed.

(** C8.  Whichever path follows, the first instruction executed copies the
    timer counter TAR into [__ss_isr_tar_entry]; it starts from the entry
    state, and the context test comes next, from a state that differs from
    the entry state in that one cell only. *)
Theorem C8_tar_captured_first m :
  exists m1 rest,
    isr_trace K S fct m =
      (MOV (Abs (TAR S)) (Abs (__ss_isr_tar_entry S)), m)
        :: (CMP (Imm 0) (Reg r1), m1) :: rest /\
    mem m1 (__ss_isr_tar_entry S) = mem m (TAR S) /\
    (forall a, a <> __ss_isr_tar_entry S -> mem m1 a = mem m a) /\
    (forall r, regs m1 r = regs m r).
Proof.
  exists (captured S m).
  unfold isr_trace. rewrite step_isr_eq.
  destruct (wrap (regs m r1) =? 0); eexists;
    (split; [reflexivity|]); unfold captured;
    (split; [apply mem_store_same|]);
    (split; [intros a Ha; now apply mem_store_other | reflexivity]).
Qed.

End Invocation.

(** ** The timer as the handler and the initialisation leave it *)

Section Timer.

Variable K : linkage.
Variable S : symbols.
Variable fct : Z.

Lemma mem_exit_A_TACTL m :
  regs m r1 = 0 -> mem (isr_exit K S fct m) (TACTL S) = TACTL_ENABLE.
Proof.
  intros H. rewrite isr_exit_A by exact H. rewrite !mem_pop.
  unfold rearmed. apply mem_store_same.
Qed.

Lemma mem_exit_A_TACCR0 m :
  regs m r1 = 0 -> TACCR0 S <> TACTL S ->
  mem (isr_exit K S fct m) (TACCR0 S) = RESUME_LATENCY.
Proof.
  intros H D. rewrite isr_exit_A by exact H. rewrite !mem_pop.
  unfold rearmed, latched. rewrite mem_store_other by exact D.
  apply mem_store_same.
Qed.

Lemma mem_exit_B_TACTL m :
  0 < regs m r1 < 65536 -> mem (isr_exit K S fct m) (TACTL S) = 0.
Proof.
  intros H. rewrite isr_exit_B by exact H. rewrite !mem_pop.
  unfold disabled. apply mem_store_same.
Qed.

Lemma mem_exit_B_other m a :
  0 < regs m r1 < 65536 ->
  a <> TACTL S -> a <> __ss_isr_tar_entry S ->
  mem (isr_exit K S fct m) a = mem m a.
Proof.
  intros H D1 D2. rewrite isr_exit_B by exact H. rewrite !mem_pop.
  unfold disabled, tested, captured. cbv zeta.
  now rewrite mem_store_other, mem_set_reg, mem_store_other.
Qed.

Lemma timer_state_exit_B m :
  0 < regs m r1 < 65536 ->
  TACCR0 S <> TACTL S -> TACCR0 S <> __ss_isr_tar_entry S ->
  timer_state S (isr_exit K S fct m) = (0, mem m (TACCR0 S)).
Proof.
  intros H D1 D2. unfold timer_state.
  now rewrite mem_exit_B_TACTL, mem_exit_B_other.
Qed.

(** C5.  In any series of invocations that all find r1 nonzero, none calls
    the callback and each leaves TACTL at zero, the timer stopped; running
    the handler once more from where such an invocation ended (r1 still
    nonzero) leaves the timer configuration as the first one left it. *)
Theorem C5_idle_invocations (ms : list machine) :
  TACCR0 S <> TACTL S ->
  TACCR0 S <> __ss_isr_tar_entry S ->
  Forall (fun m => 0 < regs m r1 < 65536) ms ->
  Forall (fun m =>
            count is_call (instrs (isr_trace K S fct m)) = 0%nat /\
            mem (isr_exit K S fct m) (TACTL S) = 0 /\
            timer_enabled S (isr_exit K S fct m) = false /\
            (0 < regs (isr_exit K S fct m) r1 < 65536 ->
             timer_state S (isr_exit K S fct (isr_exit K S fct m)) =
             timer_state S (isr_exit K S fct m))) ms.
Proof.
  intros D1 D2 Hall. induction Hall as [|m ms Hm _ IH]; constructor.
  - split; [now rewrite isr_trace_B|].
    split; [now apply mem_exit_B_TACTL|].
    split.
    + unfold timer_enabled. now rewrite mem_exit_B_TACTL.
    + intros Hm'. rewrite !timer_state_exit_B by assumption.
      now rewrite mem_exit_B_other by (assumption || congruence).
  - exact IH.
Qed.

(** C7.  When the handler takes State A it leaves the compare threshold at
    the resume latency 0x41 and TACTL at TACTL_ENABLE, whatever the entry
    state and the callback; the two stores take immediate operands, and no
    instruction of the handler stores anything else to TACCR0.  The three
    latencies are the constants 34, 42 and 0x41. *)
Theorem C7_rearm_constants m :
  regs m r1 = 0 ->
  TACCR0 S <> TACTL S ->
  TACCR0 S <> __ss_isr_tar_entry S ->
  mem (isr_exit K S fct m) (TACCR0 S) = RESUME_LATENCY /\
  mem (isr_exit K S fct m) (TACTL S) = TACTL_ENABLE /\
  timer_enabled S (isr_exit K S fct m) = true /\
  (exists pre post,
      instrs (isr_trace K S fct m) =
      pre ++ MOV (Imm RESUME_LATENCY) (Abs (TACCR0 S))
          :: MOV (Imm TACTL_ENABLE) (Abs (TACTL S)) :: post) /\
  (forall i, In i (text (SANCUS_STEP_ISR S fct)) ->
             writes_cell (TACCR0 S) i = true ->
             sources i = [Imm RESUME_LATENCY]) /\
  (HW_IRQ_LATENCY, INIT_LATENCY, RESUME_LATENCY) = (34, 42, 65).
Proof.
  intros H D1 D2.
  split; [now apply mem_exit_A_TACCR0|].
  split; [now apply mem_exit_A_TACTL|].
  split; [unfold timer_enabled; now rewrite mem_exit_A_TACTL|].
  split.
  - rewrite isr_trace_A by exact H.
    exists [ MOV (Abs (TAR S)) (Abs (__ss_isr_tar_entry S));
             CMP (Imm 0) (Reg r1); JNE 1;
             MOV (Abs (__ss_isr_sp S)) (Reg r1);
             PUSH (Reg r15); PUSH (Imm 0); CALL fct ].
    exists [JMP 2; RETI]. reflexivity.
  - split; [|reflexivity].
    intros i Hi Hw. cbn in Hi.
    repeat (destruct Hi as [<-|Hi]); try discriminate Hw;
      try reflexivity; try contradiction.
    all: apply Z.eqb_eq in Hw; congruence.
Qed.

(** C10.  In State B the only store to a timer register is the zero
    written to TACTL: the compare threshold TACCR0 holds at the return
    what it held at entry, and still does after TACTL is written again
    from outside. *)
Theorem C10_threshold_survives m v :
  0 < regs m r1 < 65536 ->
  TACCR0 S <> TACTL S ->
  TACCR0 S <> __ss_isr_tar_entry S ->
  let m' := isr_exit K S fct m in
  snd (step_isr K S fct m) = Returned m' /\
  mem m' (TACTL S) = 0 /\
  mem m' (TACCR0 S) = mem m (TACCR0 S) /\
  mem (store (TACTL S) v m') (TACCR0 S) = mem m (TACCR0 S) /\
  (forall a, a <> TACTL S -> a <> __ss_isr_tar_entry S ->
             mem m' a = mem m a) /\
  count (writes_cell (TACCR0 S)) (instrs (isr_trace K S fct m)) = 0%nat.
Proof.
  intros H D1 D2. cbv zeta.
  split; [rewrite isr_exit_B, step_isr_B by exact H; reflexivity|].
  split; [now apply mem_exit_B_TACTL|].
  split; [now apply mem_exit_B_other|].
  split; [rewrite mem_store_other by exact D1; now apply mem_exit_B_other|].
  split; [intros a Ha Hb; now apply mem_exit_B_other|].
  rewrite isr_trace_B by exact H.
  unfold count.
  cbn [trace_B instrs map fst filter writes_cell destination].
  destruct (Z.eqb_spec (__ss_isr_tar_entry S) (TACCR0 S)); [congruence|].
  destruct (Z.eqb_spec (TACTL S) (TACCR0 S)); [congruence|].
  reflexivity.
Qed.

End Timer.

(** ** Interrupts stay masked while the handler runs *)





Section Masked.

Variable K : linkage.
Variable S : symbols.
Variable fct : Z.

Hypothesis callback_keeps_masked :
  forall x, gie x = false -> gie (extern K fct x) = false.



End Masked.

(** ** Initialisation *)

Section Init.

Variable K : linkage.
Variable S : symbols.
Variable TACTL_DISABLE : Z.

Lemma step_init_eq m :
  step_init K S TACTL_DISABLE m =
  let i1 := set_reg r2 (Z.clearbit (regs m r2) flag_GIE) m in
  let i2 := store (TACTL S) (wrap TACTL_DISABLE) i1 in
  let i3 := store (TACCR0 S) (wrap INIT_LATENCY) i2 in
  ([ (DINT, m);
     (MOV (Imm TACTL_DISABLE) (Abs (TACTL S)), i1);
     (MOV (Imm INIT_LATENCY) (Abs (TACCR0 S)), i2);
     (MOV (Imm TACTL_ENABLE) (Abs (TACTL S)), i3) ],
   FellThrough (store (TACTL S) (wrap TACTL_ENABLE) i3)).
Proof.
  unfold step_init, init_fuel. tick. tick. tick. tick. tick. reflexivity.
Qed.

(** C6.  The initialisation executes, in this order, [dint], the store of
    TACTL_DISABLE to TACTL, the store of INIT_LATENCY to TACCR0 and the
    store of TACTL_ENABLE (up mode, clock select 2) to TACTL; it always
    runs to its end, leaving interrupts masked, the threshold at
    INIT_LATENCY and the timer enabled.  That first threshold is not the
    resume latency of the steps that follow. *)
Theorem C6_initialisation m :
  TACCR0 S <> TACTL S ->
  exists m1 m2 m3 m',
    step_init K S TACTL_DISABLE m =
      ([ (DINT, m);
         (MOV (Imm TACTL_DISABLE) (Abs (TACTL S)), m1);
         (MOV (Imm INIT_LATENCY) (Abs (TACCR0 S)), m2);
         (MOV (Imm TACTL_ENABLE) (Abs (TACTL S)), m3) ],
       FellThrough m') /\
    gie m1 = false /\
    mem m2 (TACTL S) = wrap TACTL_DISABLE /\
    mem m3 (TACCR0 S) = INIT_LATENCY /\
    gie m' = false /\
    mem m' (TACCR0 S) = INIT_LATENCY /\
    mem m' (TACTL S) = TACTL_ENABLE /\
    timer_enabled S m' = true /\
    timer_mode TACTL_ENABLE = 1 /\
    timer_clock TACTL_ENABLE = 2 /\
    INIT_LATENCY <> RESUME_LATENCY.
Proof.
  intros D. do 4 eexists. split; [apply step_init_eq|].
  assert (G : gie (set_reg r2 (Z.clearbit (regs m r2) flag_GIE) m) = false).
  { unfold gie. rewrite regs_set_reg_same. apply Z.clearbit_eq. }
  split; [exact G|].
  split; [apply mem_store_same|].
  split; [apply mem_store_same|].
  split; [exact G|].
  split; [rewrite mem_store_other by exact D; apply mem_store_same|].
  split; [apply mem_store_same|].
  split; [unfold timer_enabled; now rewrite mem_store_same|].
  repeat split. discriminate.
Qed.

End Init.

(** ** The interrupt stack *)

Lemma wrap_down_down z : wrap (wrap (z - 2) - 2) = wrap (z - 4).
Proof. unfold wrap. rewrite Zminus_mod_idemp_l. f_equal. lia. Qed.

Lemma wrap_down3 z : wrap (wrap (z - 4) - 2) = wrap (z - 6).
Proof. unfold wrap. rewrite Zminus_mod_idemp_l. f_equal. lia. Qed.



Lemma slots_differ z : wrap (z - 4) <> wrap (z - 2).
Proof.
  unfold wrap. intros E.
  assert (H : (z - 2 - (z - 4)) mod 65536 = 0).
  { rewrite Zminus_mod, E, Z.sub_diag. reflexivity. }
  replace (z - 2 - (z - 4)) with 2 in H by lia. discriminate H.
Qed.

Section Stack.

Variable K : linkage.
Variable S : symbols.
Variable fct : Z.

Hypothesis cell_not_tar_entry : (__ss_isr_sp S) <> __ss_isr_tar_entry S.
Hypothesis cell_not_TACCR0 : (__ss_isr_sp S) <> TACCR0 S.
Hypothesis cell_not_TACTL : (__ss_isr_sp S) <> TACTL S.

Lemma mem_tested_cell m : mem (tested S m) (__ss_isr_sp S) = mem m (__ss_isr_sp S).
Proof.
  unfold tested, captured. cbv zeta.
  now rewrite mem_set_reg, mem_store_other.
Qed.


Lemma regs_switched_sp m : regs (switched S m) r1 = mem m (__ss_isr_sp S).
Proof.
  unfold switched. cbv zeta. rewrite regs_set_reg_same.
  apply mem_tested_cell.
Qed.

Lemma regs_switched_r15 m : regs (switched S m) r15 = regs m r15.
Proof.
  unfold switched, tested, captured. cbv zeta.
  now rewrite !regs_set_reg_other, regs_store by discriminate.
Qed.

Lemma regs_saved_sp m : regs (saved S m) r1 = wrap (mem m (__ss_isr_sp S) - 2).
Proof.
  unfold saved. cbv zeta. now rewrite regs_push_sp, regs_switched_sp.
Qed.

Lemma regs_framed_sp m : regs (framed S m) r1 = wrap (mem m (__ss_isr_sp S) - 4).
Proof.
  unfold framed. now rewrite regs_push_sp, regs_saved_sp, wrap_down_down.
Qed.

Lemma mem_framed_placeholder m :
  mem (framed S m) (wrap (mem m (__ss_isr_sp S) - 4)) = 0.
Proof.
  unfold framed. rewrite <- wrap_down_down, <- regs_saved_sp.
  apply mem_push_top.
Qed.

Lemma mem_framed_saved m :
  mem (framed S m) (wrap (mem m (__ss_isr_sp S) - 2)) = regs m r15.
Proof.
  unfold framed. rewrite mem_push_other.
  - unfold saved. cbv zeta. rewrite <- (regs_switched_sp m) at 1.
    now rewrite mem_push_top, regs_switched_r15.
  - rewrite regs_saved_sp, wrap_down_down.
    intros E. symmetry in E. revert E. apply slots_differ.
Qed.

Section Discipline.

Variable S0 : Z.

Hypothesis slot1_apart : wrap (S0 - 2) <> (__ss_isr_sp S).
Hypothesis slot2_apart : wrap (S0 - 4) <> (__ss_isr_sp S).
Hypothesis slot3_apart : wrap (S0 - 6) <> (__ss_isr_sp S).

Hypothesis callback_keeps_cell :
  forall x, mem (extern K fct x) (__ss_isr_sp S) = mem x (__ss_isr_sp S).
Hypothesis callback_returns :
  forall x, regs (extern K fct x) r1 = wrap (regs x r1 + 2).






Hypothesis S0_word : word S0.


End Discipline.

End Stack.

Lemma regs_disabled S m r : r <> r2 -> regs (disabled S m) r = regs m r.
Proof.
  intros H. unfold disabled, tested, captured. cbv zeta.
  now rewrite regs_store, regs_set_reg_other.
Qed.

Lemma mem_disabled_other S m a :
  a <> TACTL S -> a <> __ss_isr_tar_entry S ->
  mem (disabled S m) a = mem m a.
Proof.
  intros H1 H2. unfold disabled, tested, captured. cbv zeta.
  now rewrite mem_store_other, mem_set_reg, mem_store_other.
Qed.



Section Resume.

Variable K : linkage.
Variable S : symbols.
Variable fct : Z.
Variable S0 : Z.

Hypothesis cell_not_tar_entry : __ss_isr_sp S <> __ss_isr_tar_entry S.
Hypothesis callback_returns :
  forall x, regs (extern K fct x) r1 = wrap (regs x r1 + 2).
Hypothesis callback_keeps_saved :
  forall x, mem (extern K fct x) (wrap (S0 - 2)) = mem x (wrap (S0 - 2)).
Hypothesis callback_keeps_placeholder :
  forall x, mem (extern K fct x) (wrap (S0 - 4)) = mem x (wrap (S0 - 4)).
Hypothesis timer_not_saved :
  wrap (S0 - 2) <> TACCR0 S /\ wrap (S0 - 2) <> TACTL S.
Hypothesis timer_not_placeholder :
  wrap (S0 - 4) <> TACCR0 S /\ wrap (S0 - 4) <> TACTL S.




End Resume.

Lemma wrap_in_stack base z d :
  0 <= base -> base + 2 * ISR_STACK_SIZE <= 65536 ->
  2 <= d <= 6 ->
  base + 6 <= z <= base + 2 * ISR_STACK_SIZE ->
  wrap (z - d) = z - d.
Proof.
  unfold ISR_STACK_SIZE. intros Hb Ht Hd Hz.
  apply wrap_word. unfold word. lia.
Qed.


(** ** Where the handler returns to *)

Section Returning.

Variable K : linkage.
Variable S : symbols.
Variable fct : Z.



End Returning.



(** ** The macros on the concrete image *)

Lemma demo_layout :
  TACCR0 demo_symbols <> TACTL demo_symbols /\
  TACCR0 demo_symbols <> __ss_isr_tar_entry demo_symbols /\
  __ss_isr_sp demo_symbols <> __ss_isr_tar_entry demo_symbols /\
  __ss_isr_sp demo_symbols <> TACCR0 demo_symbols /\
  __ss_isr_sp demo_symbols <> TACTL demo_symbols.
Proof. repeat split; discriminate. Defined.


Lemma demo_idle_signal : 0 < regs demo_idle r1 < 65536.
Proof. split; reflexivity. Defined.




Lemma C2_witness :
  word (regs demo_idle r1) /\
  (path_of (isr_trace demo_linkage demo_symbols demo_fct demo_idle) = StateB
   <-> regs demo_idle r1 <> 0).
Proof.
  assert (W : word (regs demo_idle r1)) by (split; [discriminate|reflexivity]).
  split; [exact W|].
  apply (C2_single_test demo_linkage demo_symbols demo_fct demo_idle W).
Defined.

(** C3, as stated, fails: with r1 nonzero at entry a cell other than TACTL
    has changed when [reti] starts: [__ss_isr_tar_entry] held 0 and now
    holds 7, the timer count. *)
Lemma C3_counterexample :
  0 < regs demo_idle r1 < 65536 /\
  exists mb,
    state_before is_reti
      (isr_trace demo_linkage demo_symbols demo_fct demo_idle) = Some mb /\
    __ss_isr_tar_entry demo_symbols <> TACTL demo_symbols /\
    mem demo_idle (__ss_isr_tar_entry demo_symbols) = 0 /\
    mem mb (__ss_isr_tar_entry demo_symbols) = 7.
Proof.
  split; [exact demo_idle_signal|].
  exists (disabled demo_symbols demo_idle).
  split; [now rewrite isr_trace_B by exact demo_idle_signal|].
  split; [discriminate|].
  split; vm_compute; reflexivity.
Qed.

Lemma C3_witness :
  0 < regs demo_idle r1 < 65536 /\
  count is_call
        (instrs (isr_trace demo_linkage demo_symbols demo_fct demo_idle))
    = 0%nat.
Proof.
  split; [exact demo_idle_signal|].
  apply (C3_state_B_frame demo_linkage demo_symbols demo_fct demo_idle).
  exact demo_idle_signal.
Defined.


Lemma C5_witness :
  Forall (fun m => 0 < regs m r1 < 65536) [demo_idle] /\
  timer_enabled demo_symbols
    (isr_exit demo_linkage demo_symbols demo_fct demo_idle) = false /\
  timer_state demo_symbols
    (isr_exit demo_linkage demo_symbols demo_fct
       (isr_exit demo_linkage demo_symbols demo_fct demo_idle)) =
  timer_state demo_symbols
    (isr_exit demo_linkage demo_symbols demo_fct demo_idle).
Proof.
  assert (H : Forall (fun m => 0 < regs m r1 < 65536) [demo_idle]).
  { constructor; [exact demo_idle_signal | constructor]. }
  split; [exact H|].
  pose proof (C5_idle_invocations demo_linkage demo_symbols demo_fct
                [demo_idle] (proj1 demo_layout)
                (proj1 (proj2 demo_layout)) H) as P.
  inversion P as [|x l Hx Hl].
  destruct Hx as (_ & _ & He & Hi).
  split; [exact He|]. apply Hi. split; reflexivity.
Defined.

Lemma C6_witness :
  TACCR0 demo_symbols <> TACTL demo_symbols /\
  exists m',
    snd (step_init demo_linkage demo_symbols 4 demo_idle) = FellThrough m' /\
    mem m' (TACCR0 demo_symbols) = INIT_LATENCY.
Proof.
  split; [exact (proj1 demo_layout)|].
  destruct (C6_initialisation demo_linkage demo_symbols 4 demo_idle
              (proj1 demo_layout))
    as (m1 & m2 & m3 & m' & E & _ & _ & _ & _ & H & _).
  exists m'. rewrite E. split; [reflexivity | exact H].
Defined.

Lemma C7_witness :
  regs demo_active r1 = 0 /\
  mem (isr_exit demo_linkage demo_symbols demo_fct demo_active)
      (TACCR0 demo_symbols) = RESUME_LATENCY.
Proof.
  split; [reflexivity|].
  apply (C7_rearm_constants demo_linkage demo_symbols demo_fct demo_active).
  - reflexivity.
  - exact (proj1 demo_layout).
  - exact (proj1 (proj2 demo_layout)).
Defined.



Lemma C10_witness :
  0 < regs demo_idle r1 < 65536 /\
  mem (isr_exit demo_linkage demo_symbols demo_fct demo_idle)
      (TACCR0 demo_symbols) = mem demo_idle (TACCR0 demo_symbols).
Proof.
  split; [exact demo_idle_signal|].
  destruct (C10_threshold_survives demo_linkage demo_symbols demo_fct
              demo_idle 0x212 demo_idle_signal (proj1 demo_layout)
              (proj1 (proj2 demo_layout)))
    as (_ & _ & E & _).
  exact E.
Defined.

(** * Further properties of the two macros *)

(** ** How long the handler runs *)

(** X1.  Whatever the entry state and however much fuel beyond thirteen
    lines, the handler leaves through [reti], never stuck and never past
    its last line, after eleven instructions in State A and five in
    State B. *)
Theorem X1_handler_bounded K S fct k m :
  let out := run K (SANCUS_STEP_ISR S fct) (k + 13) 0 m in
  out = step_isr K S fct m /\
  (exists m', snd out = Returned m') /\
  (path_of (fst out) = StateA -> length (fst out) = 11%nat) /\
  (path_of (fst out) = StateB -> length (fst out) = 5%nat).
Proof.
  cbv zeta. rewrite run_isr_eq, step_isr_eq.
  destruct (wrap (regs m r1) =? 0); cbn [fst snd].
  - split; [reflexivity|]. split; [eexists; reflexivity|].
    split; [reflexivity | discriminate].
  - split; [reflexivity|]. split; [eexists; reflexivity|].
    split; [discriminate | reflexivity].
Qed.

(** ** What the return restores *)

(** X2.  State B resumes what was interrupted: provided the two-word frame
    at the entry stack pointer is neither [__ss_isr_tar_entry] nor TACTL,
    [reti] reloads the status register and the program counter from that
    frame, moves the stack pointer two words up, and every other register
    is as it was at entry. *)
Theorem X2_state_B_resumes K S fct m :
  0 < regs m r1 < 65536 ->
  regs m r1 <> TACTL S ->
  regs m r1 <> __ss_isr_tar_entry S ->
  wrap (regs m r1 + 2) <> TACTL S ->
  wrap (regs m r1 + 2) <> __ss_isr_tar_entry S ->
  let m' := isr_exit K S fct m in
  regs m' r2 = mem m (regs m r1) /\
  regs m' r0 = mem m (wrap (regs m r1 + 2)) /\
  regs m' r1 = wrap (wrap (regs m r1 + 2) + 2) /\
  (forall r, r <> r0 -> r <> r1 -> r <> r2 -> regs m' r = regs m r).
Proof.
  intros H F1 F2 F3 F4. cbv zeta. rewrite isr_exit_B by exact H.
  assert (Hsp : regs (disabled S m) r1 = regs m r1)
    by (apply regs_disabled; discriminate).
  split; [|split; [|split]].
  - rewrite regs_pop_other, regs_pop_target by discriminate.
    now rewrite Hsp, mem_disabled_other.
  - rewrite regs_pop_target, mem_pop, regs_pop_sp by discriminate.
    now rewrite Hsp, mem_disabled_other.
  - now rewrite !regs_pop_sp, Hsp.
  - intros r H0 H1 H2.
    now rewrite !regs_pop_other, regs_disabled by assumption.
Qed.


(** ** What the callback finds *)

Section Callback.

Variable K : linkage.
Variable S : symbols.
Variable fct : Z.

Hypothesis cell_not_tar_entry : __ss_isr_sp S <> __ss_isr_tar_entry S.

Lemma regs_framed_other m r :
  r <> r1 -> r <> r2 -> regs (framed S m) r = regs m r.
Proof.
  intros H1 H2. unfold framed, saved, switched, tested, captured. cbv zeta.
  now rewrite !regs_push_other, !regs_set_reg_other, regs_store by assumption.
Qed.

Lemma mem_framed_other m a :
  a <> __ss_isr_tar_entry S ->
  a <> wrap (mem m (__ss_isr_sp S) - 2) ->
  a <> wrap (mem m (__ss_isr_sp S) - 4) ->
  mem (framed S m) a = mem m a.
Proof.
  intros Ht H2 H4. unfold framed. rewrite mem_push_other.
  - unfold saved. cbv zeta. rewrite mem_push_other.
    + unfold switched, tested, captured. cbv zeta.
      now rewrite !mem_set_reg, mem_store_other.
    + now rewrite regs_switched_sp.
  - now rewrite regs_saved_sp, wrap_down_down.
Qed.

Lemma mem_framed_tar_entry m :
  __ss_isr_tar_entry S <> wrap (mem m (__ss_isr_sp S) - 2) ->
  __ss_isr_tar_entry S <> wrap (mem m (__ss_isr_sp S) - 4) ->
  mem (framed S m) (__ss_isr_tar_entry S) = mem m (TAR S).
Proof.
  intros H2 H4. unfold framed. rewrite mem_push_other.
  - unfold saved. cbv zeta. rewrite mem_push_other.
    + unfold switched, tested, captured. cbv zeta.
      now rewrite !mem_set_reg, mem_store_same.
    + now rewrite regs_switched_sp.
  - now rewrite regs_saved_sp, wrap_down_down.
Qed.

Lemma callback_entry_A m :
  regs m r1 = 0 ->
  callback_entry K (isr_trace K S fct m) =
  Some (push (ret_addr K) (framed S m)).
Proof. intros H. now rewrite isr_trace_A. Qed.

Lemma regs_entry_sp m :
  regs (push (ret_addr K) (framed S m)) r1 =
  wrap (mem m (__ss_isr_sp S) - 6).
Proof. now rewrite regs_push_sp, regs_framed_sp, wrap_down3. Qed.

Lemma mem_entry_other m a :
  a <> __ss_isr_tar_entry S ->
  a <> wrap (mem m (__ss_isr_sp S) - 2) ->
  a <> wrap (mem m (__ss_isr_sp S) - 4) ->
  a <> wrap (mem m (__ss_isr_sp S) - 6) ->
  mem (push (ret_addr K) (framed S m)) a = mem m a.
Proof.
  intros Ht H2 H4 H6. rewrite mem_push_other.
  - now apply mem_framed_other.
  - now rewrite regs_framed_sp, wrap_down3.
Qed.

End Callback.

(** X4.  When the callback starts in State A, the handler has changed
    nothing in memory but [__ss_isr_tar_entry], which holds the timer count
    read at entry, and the three words below the interrupt stack top, the
    lowest of which holds the return address and is where the stack pointer
    stands; every register but r1 and r2 is as it was at the interrupt.
    The timer registers are therefore still as the interrupt found them. *)
Theorem X4_callback_entry K S fct S0 m :
  __ss_isr_sp S <> __ss_isr_tar_entry S ->
  regs m r1 = 0 ->
  mem m (__ss_isr_sp S) = S0 ->
  exists ce,
    callback_entry K (isr_trace K S fct m) = Some ce /\
    regs ce r1 = wrap (S0 - 6) /\
    mem ce (wrap (S0 - 6)) = ret_addr K /\
    (forall r, r <> r1 -> r <> r2 -> regs ce r = regs m r) /\
    (forall a, a <> __ss_isr_tar_entry S ->
               a <> wrap (S0 - 2) -> a <> wrap (S0 - 4) ->
               a <> wrap (S0 - 6) -> mem ce a = mem m a) /\
    (__ss_isr_tar_entry S <> wrap (S0 - 2) ->
     __ss_isr_tar_entry S <> wrap (S0 - 4) ->
     __ss_isr_tar_entry S <> wrap (S0 - 6) ->
     mem ce (__ss_isr_tar_entry S) = mem m (TAR S)).
Proof.
  intros D HA H0. subst S0.
  exists (push (ret_addr K) (framed S m)).
  split; [now apply callback_entry_A|].
  split; [now apply regs_entry_sp|].
  split.
  { rewrite <- (regs_entry_sp K S D m) at 1.
    rewrite regs_push_sp. apply mem_push_top. }
  split.
  { intros r H1 H2. rewrite regs_push_other by exact H1.
    now apply regs_framed_other. }
  split.
  { intros a Ht H2 H4 H6. now apply mem_entry_other. }
  intros H2 H4 H6. rewrite mem_push_other.
  - now apply mem_framed_tar_entry.
  - now rewrite regs_framed_sp, wrap_down3.
Qed.

(** X5.  The handler restores no register in State A: what the callback
    leaves in any register other than r0, r1 and r2, the pushed r15
    included, is what the code resumed by [reti] finds there. *)
Theorem X5_state_A_registers K S fct m r :
  regs m r1 = 0 ->
  r <> r0 -> r <> r1 -> r <> r2 ->
  exists ce,
    callback_entry K (isr_trace K S fct m) = Some ce /\
    regs (isr_exit K S fct m) r = regs (extern K fct ce) r.
Proof.
  intros HA H0 H1 H2.
  exists (push (ret_addr K) (framed S m)).
  split; [now rewrite isr_trace_A|].
  rewrite isr_exit_A by exact HA.
  rewrite !regs_pop_other by assumption.
  reflexivity.
Qed.

(** ** Room on the interrupt stack *)

(** X6.  With [__ss_isr_stack] at [base] and the saved stack pointer at
    least three words above it and at most at its end, everything the
    handler and its [call] have written when the callback starts lies
    inside the array, [__ss_isr_tar_entry] apart, and so does the stack
    pointer the callback starts with. *)
Theorem X6_pushes_stay_in_stack K S fct base S0 m :
  __ss_isr_sp S <> __ss_isr_tar_entry S ->
  regs m r1 = 0 ->
  mem m (__ss_isr_sp S) = S0 ->
  0 <= base ->
  base + 2 * ISR_STACK_SIZE <= 65536 ->
  base + 6 <= S0 <= base + 2 * ISR_STACK_SIZE ->
  exists ce,
    callback_entry K (isr_trace K S fct m) = Some ce /\
    in_isr_stack base (regs ce r1) /\
    (forall a, a <> __ss_isr_tar_entry S -> ~ in_isr_stack base a ->
               mem ce a = mem m a).
Proof.
  intros D HA H0 Hb Ht Hz. subst S0.
  set (S0 := mem m (__ss_isr_sp S)) in *.
  exists (push (ret_addr K) (framed S m)).
  split; [now apply callback_entry_A|].
  assert (E2 : wrap (S0 - 2) = S0 - 2) by (apply (wrap_in_stack base); lia).
  assert (E4 : wrap (S0 - 4) = S0 - 4) by (apply (wrap_in_stack base); lia).
  assert (E6 : wrap (S0 - 6) = S0 - 6) by (apply (wrap_in_stack base); lia).
  split.
  - rewrite regs_entry_sp by exact D. fold S0. rewrite E6.
    unfold in_isr_stack. lia.
  - intros a Ht' Hout. unfold in_isr_stack in Hout.
    apply mem_entry_other; try assumption; fold S0; lia.
Qed.

(** X7.  With room for two words only, the handler's own two pushes fit,
    the saved r15 and the zero going into the two words of the array below
    [__ss_isr_sp], but the return address of its [call] is written one
    word below the array, which is where the callback, started by that
    [call], finds its stack pointer. *)
Theorem X7_call_needs_third_word K S fct base m :
  __ss_isr_sp S <> __ss_isr_tar_entry S ->
  regs m r1 = 0 ->
  mem m (__ss_isr_sp S) = base + 4 ->
  2 <= base ->
  base + 4 < 65536 ->
  exists mc ce,
    state_before is_call (isr_trace K S fct m) = Some mc /\
    regs mc r1 = base /\
    in_isr_stack base (regs mc r1) /\
    in_isr_stack base (base + 2) /\
    mem mc (base + 2) = regs m r15 /\
    mem mc base = 0 /\
    callback_entry K (isr_trace K S fct m) = Some ce /\
    nth_error (isr_trace K S fct m) 7 =
      Some (MOV (Imm 0x41) (Abs (TACCR0 S)), extern K fct ce) /\
    regs ce r1 = base - 2 /\
    ~ in_isr_stack base (regs ce r1) /\
    mem ce (base - 2) = ret_addr K.
Proof.
  intros D HA H0 Hb Ht.
  exists (framed S m), (push (ret_addr K) (framed S m)).
  assert (Wb : wrap base = base) by (apply wrap_word; unfold word; lia).
  assert (W2 : wrap (base + 2) = base + 2)
    by (apply wrap_word; unfold word; lia).
  assert (Ec : regs (framed S m) r1 = base).
  { rewrite regs_framed_sp, H0 by exact D.
    replace (base + 4 - 4) with base by lia. exact Wb. }
  assert (E : regs (push (ret_addr K) (framed S m)) r1 = base - 2).
  { rewrite regs_entry_sp, H0 by exact D.
    replace (base + 4 - 6) with (base - 2) by lia.
    apply wrap_word. unfold word. lia. }
  split; [now rewrite isr_trace_A|].
  split; [exact Ec|].
  split; [rewrite Ec; unfold in_isr_stack, ISR_STACK_SIZE; lia|].
  split; [unfold in_isr_stack, ISR_STACK_SIZE; lia|].
  split.
  { rewrite <- W2. replace (base + 2) with (base + 4 - 2) by lia.
    rewrite <- H0. now apply mem_framed_saved. }
  split.
  { rewrite <- Wb at 1. replace base with (base + 4 - 4) at 1 by lia.
    rewrite <- H0. now apply mem_framed_placeholder. }
  split; [now apply callback_entry_A|].
  split; [now rewrite isr_trace_A|].
  split; [exact E|]. split.
  - rewrite E. unfold in_isr_stack. lia.
  - rewrite <- E at 1. rewrite regs_push_sp. apply mem_push_top.
Qed.

(** ** The initialisation and what follows it *)

Lemma init_exit_eq K S d m :
  init_exit K S d m =
  store (TACTL S) (wrap TACTL_ENABLE)
    (store (TACCR0 S) (wrap INIT_LATENCY)
       (store (TACTL S) (wrap d)
          (set_reg r2 (Z.clearbit (regs m r2) flag_GIE) m))).
Proof. unfold init_exit. now rewrite step_init_eq. Qed.

(** X8.  The initialisation touches nothing but the GIE bit of the status
    register and the timer registers TACTL and TACCR0: every other bit of
    the status register, every other register and every other memory word,
    [__ss_isr_sp] and [__ss_isr_tar_entry] among them, keep what they
    held. *)
Theorem X8_init_frame K S d m :
  let m' := init_exit K S d m in
  snd (step_init K S d m) = FellThrough m' /\
  (forall a, a <> TACTL S -> a <> TACCR0 S -> mem m' a = mem m a) /\
  (forall r, r <> r2 -> regs m' r = regs m r) /\
  (forall n, n <> flag_GIE ->
             Z.testbit (regs m' r2) n = Z.testbit (regs m r2) n).
Proof.
  cbv zeta. rewrite init_exit_eq. split; [now rewrite step_init_eq|].
  split; [|split].
  - intros a H1 H2.
    now rewrite !mem_store_other, mem_set_reg by assumption.
  - intros r Hr. now rewrite !regs_store, regs_set_reg_other.
  - intros n Hn. rewrite !regs_store, regs_set_reg_same.
    apply Z.clearbit_neq. congruence.
Qed.

Lemma timer_state_exit_A K S fct m :
  regs m r1 = 0 -> TACCR0 S <> TACTL S ->
  timer_state S (isr_exit K S fct m) = (TACTL_ENABLE, RESUME_LATENCY).
Proof.
  intros H D. unfold timer_state.
  now rewrite mem_exit_A_TACTL, mem_exit_A_TACCR0.
Qed.

(** X9.  The first interrupt after the initialisation: if it finds r1 zero
    the timer is left enabled with the resume latency, otherwise it is left
    disabled with the threshold still at INIT_LATENCY. *)
Theorem X9_first_interrupt_after_init K S fct d m :
  word (regs m r1) ->
  TACCR0 S <> TACTL S ->
  TACCR0 S <> __ss_isr_tar_entry S ->
  timer_state S (isr_exit K S fct (init_exit K S d m)) =
  if regs m r1 =? 0
  then (TACTL_ENABLE, RESUME_LATENCY)
  else (0, INIT_LATENCY).
Proof.
  intros W D1 D2. unfold word in W.
  assert (Hr : regs (init_exit K S d m) r1 = regs m r1).
  { rewrite init_exit_eq, !regs_store.
    now rewrite regs_set_reg_other by discriminate. }
  assert (Hc : mem (init_exit K S d m) (TACCR0 S) = INIT_LATENCY).
  { rewrite init_exit_eq, mem_store_other by exact D1.
    apply mem_store_same. }
  destruct (Z.eqb_spec (regs m r1) 0) as [E|N].
  - apply timer_state_exit_A; [congruence | exact D1].
  - rewrite timer_state_exit_B; [now rewrite Hc | lia | exact D1 | exact D2].
Qed.

(** ** The compare threshold over a series of interrupts *)

Lemma threshold_after K S fct m :
  TACCR0 S <> TACTL S ->
  TACCR0 S <> __ss_isr_tar_entry S ->
  mem (isr_exit K S fct m) (TACCR0 S) = mem m (TACCR0 S) \/
  mem (isr_exit K S fct m) (TACCR0 S) = RESUME_LATENCY.
Proof.
  intros D1 D2. destruct (isr_exit_cases K S fct m) as [E|E];
    rewrite E, !mem_pop.
  - right. unfold rearmed, latched.
    rewrite mem_store_other by exact D1. apply mem_store_same.
  - left. now apply mem_disabled_other.
Qed.

(** X10.  Over any series of interrupts between which nothing else writes
    TACCR0, the threshold only ever holds the value it had before the
    series or the resume latency, whatever the callback does; once it is
    the resume latency it stays so. *)
Theorem X10_threshold_two_values K S fct v m0 ms :
  TACCR0 S <> TACTL S ->
  TACCR0 S <> __ss_isr_tar_entry S ->
  series K S fct (TACCR0 S) m0 ms ->
  mem m0 (TACCR0 S) = v \/ mem m0 (TACCR0 S) = RESUME_LATENCY ->
  Forall (fun m =>
            (mem m (TACCR0 S) = v \/ mem m (TACCR0 S) = RESUME_LATENCY) /\
            (mem (isr_exit K S fct m) (TACCR0 S) = v \/
             mem (isr_exit K S fct m) (TACCR0 S) = RESUME_LATENCY) /\
            (mem m (TACCR0 S) = RESUME_LATENCY ->
             mem (isr_exit K S fct m) (TACCR0 S) = RESUME_LATENCY)) ms.
Proof.
  intros D1 D2 Hs. induction Hs as [m | m m' rest Hnext _ IH]; intros H0.
  - constructor.
  - pose proof (threshold_after K S fct m D1 D2) as Ht.
    assert (He : mem (isr_exit K S fct m) (TACCR0 S) = v \/
                 mem (isr_exit K S fct m) (TACCR0 S) = RESUME_LATENCY).
    { destruct Ht as [Ht|Ht]; [rewrite Ht; exact H0 | now right]. }
    constructor.
    + split; [exact H0|]. split; [exact He|].
      intros Hr. destruct Ht as [Ht|Ht]; congruence.
    + apply IH. now rewrite Hnext.
Qed.

(** ** The further properties on the concrete image *)

Lemma demo_series :
  series demo_linkage demo_symbols demo_fct (TACCR0 demo_symbols)
         demo_active [demo_active; demo_idle].
Proof.
  apply series_irq with (m' := demo_idle); [reflexivity|].
  apply series_irq with (m' := demo_idle); [reflexivity|].
  apply series_end.
Defined.

Lemma X2_witness :
  0 < regs demo_idle r1 < 65536 /\
  regs (isr_exit demo_linkage demo_symbols demo_fct demo_idle) r0 = 0x5000.
Proof.
  split; [exact demo_idle_signal|].
  destruct (X2_state_B_resumes demo_linkage demo_symbols demo_fct demo_idle)
    as (_ & E & _); try exact demo_idle_signal; try discriminate.
  rewrite E. reflexivity.
Defined.


Lemma X4_witness :
  regs demo_active r1 = 0 /\
  exists ce,
    callback_entry demo_linkage
      (isr_trace demo_linkage demo_symbols demo_fct demo_active) = Some ce /\
    regs ce r1 = 0x3FA /\
    mem ce (__ss_isr_tar_entry demo_symbols) = 7.
Proof.
  split; [reflexivity|].
  destruct (X4_callback_entry demo_linkage demo_symbols demo_fct 0x400
              demo_active) as (ce & E & Hsp & _ & _ & _ & Ht);
    try reflexivity; try discriminate.
  exists ce. split; [exact E|]. split; [exact Hsp|].
  apply Ht; discriminate.
Defined.

Lemma X5_witness :
  regs demo_active r1 = 0 /\
  exists ce,
    callback_entry demo_linkage
      (isr_trace demo_linkage demo_symbols demo_fct demo_active) = Some ce /\
    regs (isr_exit demo_linkage demo_symbols demo_fct demo_active) r15 =
    regs (extern demo_linkage demo_fct ce) r15.
Proof.
  split; [reflexivity|].
  apply (X5_state_A_registers demo_linkage demo_symbols demo_fct
           demo_active r15); try reflexivity; discriminate.
Defined.

Lemma X6_witness :
  regs demo_active r1 = 0 /\
  exists ce,
    callback_entry demo_linkage
      (isr_trace demo_linkage demo_symbols demo_fct demo_active) = Some ce /\
    in_isr_stack 0x300 (regs ce r1).
Proof.
  split; [reflexivity|].
  destruct (X6_pushes_stay_in_stack demo_linkage demo_symbols demo_fct
              0x300 0x400 demo_active) as (ce & E & Hin & _);
    try reflexivity; try discriminate.
  - split; discriminate.
  - exists ce. split; [exact E | exact Hin].
Defined.

Lemma X7_witness :
  mem demo_active (__ss_isr_sp demo_symbols) = 0x3FC + 4 /\
  exists mc ce,
    state_before is_call
      (isr_trace demo_linkage demo_symbols demo_fct demo_active) = Some mc /\
    in_isr_stack 0x3FC (regs mc r1) /\
    callback_entry demo_linkage
      (isr_trace demo_linkage demo_symbols demo_fct demo_active) = Some ce /\
    ~ in_isr_stack 0x3FC (regs ce r1).
Proof.
  split; [reflexivity|].
  destruct (X7_call_needs_third_word demo_linkage demo_symbols demo_fct
              0x3FC demo_active)
    as (mc & ce & Ec & _ & Hin & _ & _ & _ & E & _ & _ & Hout & _);
    try reflexivity; try discriminate.
  exists mc, ce.
  split; [exact Ec|]. split; [exact Hin|]. split; [exact E | exact Hout].
Defined.

Lemma X9_witness :
  word (regs demo_idle r1) /\
  timer_state demo_symbols
    (isr_exit demo_linkage demo_symbols demo_fct
       (init_exit demo_linkage demo_symbols 4 demo_idle)) =
  (0, INIT_LATENCY).
Proof.
  assert (W : word (regs demo_idle r1)) by (split; [discriminate|reflexivity]).
  split; [exact W|].
  apply (X9_first_interrupt_after_init demo_linkage demo_symbols demo_fct
           4 demo_idle W (proj1 demo_layout) (proj1 (proj2 demo_layout))).
Defined.

Lemma X10_witness :
  series demo_linkage demo_symbols demo_fct (TACCR0 demo_symbols)
         demo_active [demo_active; demo_idle] /\
  Forall (fun m =>
            mem (isr_exit demo_linkage demo_symbols demo_fct m)
                (TACCR0 demo_symbols) = RESUME_LATENCY)
         [demo_active; demo_idle].
Proof.
  split; [exact demo_series|].
  pose proof (X10_threshold_two_values demo_linkage demo_symbols demo_fct
                RESUME_LATENCY demo_active [demo_active; demo_idle]
                (proj1 demo_layout) (proj1 (proj2 demo_layout))
                demo_series (or_introl eq_refl)) as P.
  eapply Forall_impl; [|exact P].
  intros m (_ & [H|H] & _); exact H.
Defined.
